(** * The Nutripatrol client: request dispatcher and typed accessors

    A shallow embedding of the class [SearchALicious]: its private
    dispatcher [fetchApi], which folds every failure of an HTTP call into
    a value of the shape [{error: {statusCode, message, details?}}], and
    the two accessors [getFlags] and [getApiHealth] built on it.

    JavaScript values are a first-order datatype; an [async] function is
    a computation in the exception monad [sum Thrown] (a promise either
    resolves, [inr], or rejects, [inl]); [await] is the monad's bind and
    [try { .. } catch { .. }] is its [catch]. *)

From Stdlib Require Import ZArith String List Bool Lia.
From ExtLib Require Import Structures.Monad Structures.MonadExc.
From ExtLib Require Import Data.Monads.EitherMonad.
Import ListNotations.
Import MonadNotation.
Local Open Scope monad_scope.
Local Open Scope string_scope.
Local Open Scope Z_scope.

Set Warnings "-register-all".

(** ** JavaScript values *)

(** The values a JSON body, an options bag or a result can be.  The code
    never computes with numbers: it tests them for truthiness, compares a
    status with 422 and stores a status, so numbers are integers here.
    An object is its list of own properties, in insertion order. *)
Inductive JsVal : Type :=
| JUndefined
| JNull
| JBool (b : bool)
| JNum (n : Z)
| JStr (s : string)
| JArr (items : list JsVal)
| JObj (props : list (string * JsVal)).

(** What a [throw] or a rejected promise carries. *)
Inductive Thrown : Type :=
| TypeError (msg : string)
| SyntaxError (msg : string)
| Rejected (reason : JsVal).

(** The outcome of an [async] call once awaited. *)
Definition Promise : Type -> Type := sum Thrown.

(** [!v] is [negb (truthy v)]. *)
Definition truthy (v : JsVal) : bool :=
  match v with
  | JUndefined | JNull => false
  | JBool b => b
  | JNum n => negb (n =? 0)
  | JStr s => negb (String.eqb s "")
  | JArr _ | JObj _ => true
  end.

(** The values on which [?.] short-circuits and on which a property read
    throws. *)
Definition nullish (v : JsVal) : bool :=
  match v with
  | JUndefined | JNull => true
  | _ => false
  end.

(** Own property lookup in an object's property list. *)
Fixpoint assoc (k : string) (props : list (string * JsVal)) : option JsVal :=
  match props with
  | [] => None
  | (k', v) :: rest => if String.eqb k k' then Some v else assoc k rest
  end.

(** The value of [v.k] for a [v] that is neither [undefined] nor [null],
    at the property names the client reads ([detail], [msg], [flags]):
    none of them is defined on a prototype, so only an object's own
    property can answer; arrays and primitives give [undefined]. *)
Definition member (k : string) (v : JsVal) : JsVal :=
  match v with
  | JObj props =>
      match assoc k props with
      | Some x => x
      | None => JUndefined
      end
  | _ => JUndefined
  end.

(** [v.k]: a [TypeError] on [undefined] and [null]. *)
Definition getProp (v : JsVal) (k : string) : Promise JsVal :=
  if nullish v
  then raise (TypeError "Cannot read properties of undefined or null")
  else ret (member k v).

(** [k in v], for a name [k] no prototype defines (here ["error"]): a
    [TypeError] unless [v] is an object or an array. *)
Definition js_in (k : string) (v : JsVal) : Promise bool :=
  match v with
  | JObj props =>
      ret (match assoc k props with Some _ => true | None => false end)
  | JArr _ => ret false
  | _ => raise (TypeError "Cannot use 'in' operator")
  end.

(** [Array.prototype.map] runs the callback on the elements from left to
    right; the first throw ends it. *)
Fixpoint mapM {A B : Type} (f : A -> Promise B) (l : list A)
  : Promise (list B) :=
  match l with
  | [] => ret []
  | x :: rest =>
      y <- f x ;;
      ys <- mapM f rest ;;
      ret (y :: ys)
  end.

(** [v.map(f)] for a [v] that is not nullish: only an array has a
    callable [map]; a JSON value holds no function, so on anything else
    the call is a [TypeError]. *)
Definition js_map (f : JsVal -> Promise JsVal) (v : JsVal) : Promise JsVal :=
  match v with
  | JArr items => ys <- mapM f items ;; ret (JArr ys)
  | _ => raise (TypeError "map is not a function")
  end.

(** A parameter with a default value takes it when the argument is
    [undefined]. *)
Definition default_arg (v dflt : JsVal) : JsVal :=
  match v with
  | JUndefined => dflt
  | _ => v
  end.

(** ** The transport *)

(** The platform's [Response]: its status and what awaiting [json()]
    gives, a parsed body or a rejection. *)
Record Response : Type := {
  status : Z;
  json : Promise JsVal
}.

(** The [ok] getter of a [Response]: the status is in the range 200 to
    299. *)
Definition ok (r : Response) : bool :=
  (200 <=? status r) && (status r <=? 299).

(** What a call of the generated client resolves to. *)
Record FetchResponse : Type := {
  data : JsVal;
  error : JsVal;
  response : Response
}.

(** One verb of the generated client: path and options to a promise. *)
Definition Transport : Type := string -> JsVal -> Promise FetchResponse.

(** The four verbs of [this.raw]. *)
Record RawClient : Type := {
  raw_GET : Transport;
  raw_POST : Transport;
  raw_PUT : Transport;
  raw_DELETE : Transport
}.

Inductive Method : Type := GET | POST | PUT | DELETE.

(** ** error.ts *)

(** Membership in the declared type
    [SearchALiciousError = {error: {statusCode: number; message: string;
    details?: any}}]. *)
Definition isSearchALiciousError (v : JsVal) : bool :=
  match v with
  | JObj props =>
      match assoc "error" props with
      | Some (JObj e) =>
          match assoc "statusCode" e, assoc "message" e with
          | Some (JNum _), Some (JStr _) => true
          | _, _ => false
          end
      | _ => false
      end
  | _ => false
  end.

(** ** The class *)

Record SearchALicious : Type := {
  baseUrl : string;
  raw : RawClient
}.

(** The lookup table [methods] of [fetchApi]. *)
Definition methods (this : SearchALicious) (method : Method) : Transport :=
  match method with
  | GET => raw_GET (raw this)
  | POST => raw_POST (raw this)
  | PUT => raw_PUT (raw this)
  | DELETE => raw_DELETE (raw this)
  end.

(** [res.error?.detail?.map((d) => d.msg)] *)
Definition detail_messages (err : JsVal) : Promise JsVal :=
  if nullish err then ret JUndefined
  else
    detail <- getProp err "detail" ;;
    if nullish detail then ret JUndefined
    else js_map (fun d => getProp d "msg") detail.

(** The four error values [fetchApi] builds. *)
Definition validation_error (details : JsVal) : JsVal :=
  JObj [("error", JObj [("statusCode", JNum 422);
                        ("message", JStr "Validation error");
                        ("details", details)])].

Definition request_error (statusCode : Z) (errorDetails : JsVal) : JsVal :=
  JObj [("error", JObj [("statusCode", JNum statusCode);
                        ("message", JStr "Error while requesting Nutripatrol API");
                        ("details", errorDetails)])].

Definition malformed_error : JsVal :=
  JObj [("error", JObj [("statusCode", JNum 500);
                        ("message", JStr "Malformed API response")])].

Definition unexpected_error : JsVal :=
  JObj [("error", JObj [("statusCode", JNum 500);
                        ("message", JStr "An unexpected error occurred")])].

(** The body of the [try] block of [fetchApi]. *)
Definition fetchApi_try (methods : Method -> Transport) (method : Method)
    (path : string) (options : JsVal) : Promise JsVal :=
  let fct := methods method in
  res <- fct path options ;;
  if negb (ok (response res)) then
    if status (response res) =? 422 then
      details <- detail_messages (error res) ;;
      ret (validation_error details)
    else
      errorDetails <- json (response res) ;;
      ret (request_error (status (response res)) errorDetails)
  else
    data <- json (response res) ;;
    if negb (truthy data) then ret malformed_error
    else ret data.

Definition fetchApi (this : SearchALicious) (method : Method)
    (path : string) (options : JsVal) : Promise JsVal :=
  let options := default_arg options (JObj []) in
  let methods := methods this in
  catch (fetchApi_try methods method path options)
        (fun _ => ret unexpected_error).

Definition getFlags (this : SearchALicious) : Promise JsVal :=
  data <- fetchApi this GET "/api/v1/flags" JUndefined ;;
  isError <- js_in "error" data ;;
  if isError : bool then ret data
  else getProp data "flags".

Definition getApiHealth (this : SearchALicious) : Promise JsVal :=
  data <- fetchApi this GET "/health" JUndefined ;;
  isError <- js_in "error" data ;;
  if isError : bool then ret data
  else ret data.

(** ** The dispatcher without its [try]

    What [fetchApi] returns, by cases on how the transport settled. *)

Definition settle (res : FetchResponse) : JsVal :=
  let r := response res in
  if ok r then
    match json r with
    | inr body => if truthy body then body else malformed_error
    | inl _ => unexpected_error
    end
  else if status r =? 422 then
    match detail_messages (error res) with
    | inr details => validation_error details
    | inl _ => unexpected_error
    end
  else
    match json r with
    | inr body => request_error (status r) body
    | inl _ => unexpected_error
    end.

(** ** Test doubles

    The constructor injects the transport; these stand for it in the
    concrete runs below. *)

(** What the generated client resolves to on a response of status [st]
    whose [json()] settles as [body], with [err] as its [error]. *)
Definition resolved (st : Z) (err : JsVal) (body : Promise JsVal)
  : FetchResponse :=
  {| data := JUndefined;
     error := err;
     response := {| status := st; json := body |} |}.

Definition respond (st : Z) (err : JsVal) (body : Promise JsVal)
  : Promise FetchResponse :=
  inr (resolved st err body).

(** A client whose four verbs settle as [r], whatever the path. *)
Definition stub (r : Promise FetchResponse) : SearchALicious :=
  let t : Transport := fun _ _ => r in
  {| baseUrl := "https://nutripatrol.openfoodfacts.org";
     raw := {| raw_GET := t; raw_POST := t; raw_PUT := t; raw_DELETE := t |} |}.

(** The values the [in] operator accepts. *)
Definition is_object (v : JsVal) : bool :=
  match v with
  | JObj _ | JArr _ => true
  | _ => false
  end.


(** 200 with the body [null]. *)
Definition null_body : SearchALicious :=
  stub (respond 200 JUndefined (inr JNull)).

(** 200 with the body [{flags: [{id: 1}]}]. *)
Definition flags_body : SearchALicious :=
  stub (respond 200 JUndefined
          (inr (JObj [("flags", JArr [JObj [("id", JNum 1)]])]))).

(** 200 with the body [{error: "maintenance", flags: []}]. *)
Definition error_keyed_body : SearchALicious :=
  stub (respond 200 JUndefined
          (inr (JObj [("error", JStr "maintenance"); ("flags", JArr [])]))).

(** 422 with [{detail: [{msg: "bad id", type: "value_error",
    loc: ["query", "id"]}]}]. *)
Definition bad_id_entry : JsVal :=
  JObj [("msg", JStr "bad id");
        ("type", JStr "value_error");
        ("loc", JArr [JStr "query"; JStr "id"])].

Definition bad_id_detail : JsVal := JObj [("detail", JArr [bad_id_entry])].

Definition invalid_id : SearchALicious :=
  stub (respond 422 bad_id_detail (inr bad_id_detail)).

(** 422 with [{detail: [null]}]. *)
Definition null_detail : JsVal := JObj [("detail", JArr [JNull])].

Definition null_detail_entry : SearchALicious :=
  stub (respond 422 null_detail (inr null_detail)).

(** 404 with a body that is JSON. *)
Definition not_found : SearchALicious :=
  stub (respond 404 (JObj [("detail", JStr "Not Found")])
          (inr (JObj [("detail", JStr "Not Found")]))).

(** 502 with an HTML body: [json()] rejects. *)
Definition bad_gateway : SearchALicious :=
  stub (respond 502 (JStr "<html>Bad Gateway</html>")
          (inl (SyntaxError "Unexpected token <"))).

(** The values that have a callable [map]. *)
Definition is_array (v : JsVal) : bool :=
  match v with
  | JArr _ => true
  | _ => false
  end.

(** 422 with [{detail: "Not valid"}]: [detail] is a string. *)
Definition string_detail : JsVal := JObj [("detail", JStr "Not valid")].

Definition invalid_plain : SearchALicious :=
  stub (respond 422 string_detail (inr string_detail)).

(** 422 with [{detail: [{msg: "bad id", ..}, null]}]. *)
Definition mixed_detail : JsVal :=
  JObj [("detail", JArr [bad_id_entry; JNull])].

Definition invalid_mixed : SearchALicious :=
  stub (respond 422 mixed_detail (inr mixed_detail)).

(** 422 with no error body at all, and a body that is not JSON. *)
Definition invalid_bare : SearchALicious :=
  stub (respond 422 JUndefined (inl (SyntaxError "Unexpected end of JSON input"))).

(** 204: a success without content, [json()] rejects. *)
Definition no_content : SearchALicious :=
  stub (respond 204 JUndefined
          (inl (SyntaxError "Unexpected end of JSON input"))).

(** 200 with the body [{}]. *)
Definition empty_object_body : SearchALicious :=
  stub (respond 200 JUndefined (inr (JObj []))).

(** 200 with the body ["OK"]. *)
Definition string_body : SearchALicious :=
  stub (respond 200 JUndefined (inr (JStr "OK"))).

(** The network is down: the transport rejects. *)
Definition offline : SearchALicious :=
  stub (inl (Rejected (JStr "fetch failed"))).

(** ** Reading a property, mapping over an array *)

Lemma getProp_defined v k :
  nullish v = false -> getProp v k = inr (member k v).
Proof. intros H. unfold getProp. rewrite H. reflexivity. Qed.

Lemma getProp_nullish v k :
  nullish v = true -> exists e, getProp v k = inl e.
Proof. intros H. unfold getProp. rewrite H. eexists. reflexivity. Qed.

(** A callback that throws on no element maps like [List.map]. *)
Lemma mapM_msg ds :
  Forall (fun d => nullish d = false) ds ->
  mapM (fun d => getProp d "msg") ds = inr (map (member "msg") ds).
Proof.
  induction 1 as [| d ds Hd _ IH]; cbn.
  - reflexivity.
  - rewrite (getProp_defined d "msg" Hd), IH. reflexivity.
Qed.

(** One nullish element makes the whole [map] throw. *)
Lemma mapM_msg_throws ds :
  Exists (fun d => nullish d = true) ds ->
  exists e, mapM (fun d => getProp d "msg") ds = inl e.
Proof.
  induction 1 as [d ds Hd | d ds _ [e IH]]; cbn.
  - destruct (getProp_nullish d "msg" Hd) as [e ->]. eexists. reflexivity.
  - rewrite IH. destruct (getProp d "msg"); eexists; reflexivity.
Qed.

Lemma detail_messages_array props ds :
  assoc "detail" props = Some (JArr ds) ->
  Forall (fun d => nullish d = false) ds ->
  detail_messages (JObj props) = inr (JArr (map (member "msg") ds)).
Proof.
  intros Hdetail Hds. unfold detail_messages.
  rewrite getProp_defined by reflexivity. cbn.
  rewrite Hdetail. cbn. rewrite (mapM_msg ds Hds). reflexivity.
Qed.

Lemma detail_messages_throws props ds :
  assoc "detail" props = Some (JArr ds) ->
  Exists (fun d => nullish d = true) ds ->
  exists e, detail_messages (JObj props) = inl e.
Proof.
  intros Hdetail Hds. unfold detail_messages.
  rewrite getProp_defined by reflexivity. cbn.
  rewrite Hdetail. cbn.
  destruct (mapM_msg_throws ds Hds) as [e ->]. eexists. reflexivity.
Qed.

Lemma js_in_object k v : is_object v = true -> exists b, js_in k v = inr b.
Proof.
  destruct v; cbn; try discriminate; intros _; eexists; reflexivity.
Qed.

Lemma js_in_defined k v b : js_in k v = inr b -> nullish v = false.
Proof. destruct v; cbn; try discriminate; reflexivity. Qed.

Lemma not_ok_422 r : status r = 422 -> ok r = false.
Proof. intros H. unfold ok. rewrite H. reflexivity. Qed.

Lemma settle_shape res :
  isSearchALiciousError (settle res) = true
  \/ (ok (response res) = true
      /\ json (response res) = inr (settle res)
      /\ truthy (settle res) = true).
Proof.
  unfold settle.
  destruct (ok (response res)).
  - destruct (json (response res)) as [e | body]; [left; reflexivity |].
    destruct (truthy body) eqn:Hb; [right; auto | left; reflexivity].
  - left. destruct (status (response res) =? 422).
    + destruct (detail_messages (error res)); reflexivity.
    + destruct (json (response res)); reflexivity.
Qed.

(** ** The dispatcher *)

Section Dispatcher.

Variable this : SearchALicious.
Variable method : Method.
Variable path : string.
Variable options : JsVal.

(** The [catch] clause is the whole answer to a rejected call. *)
Lemma fetchApi_rejected e :
  methods this method path (default_arg options (JObj [])) = inl e ->
  fetchApi this method path options = inr unexpected_error.
Proof.
  intros H. unfold fetchApi, fetchApi_try. cbn. rewrite H. reflexivity.
Qed.

(** On a resolved call the [try] and its [catch] come to [settle]. *)
Lemma fetchApi_resolved res :
  methods this method path (default_arg options (JObj [])) = inr res ->
  fetchApi this method path options = inr (settle res).
Proof.
  intros H. unfold fetchApi, fetchApi_try, settle. cbn. rewrite H.
  destruct (ok (response res)); cbn.
  - destruct (json (response res)) as [e | body]; cbn; [reflexivity |].
    destruct (truthy body); reflexivity.
  - destruct (status (response res) =? 422); cbn.
    + destruct (detail_messages (error res)); reflexivity.
    + destruct (json (response res)); reflexivity.
Qed.

(** C5: when the transport throws or rejects, the dispatcher returns
    exactly [{error: {statusCode: 500, message: "An unexpected error
    occurred"}}], whose inner object has no [details] property. *)
Theorem transport_failure_is_unexpected_error (e : Thrown) :
  methods this method path (default_arg options (JObj [])) = inl e ->
  fetchApi this method path options
    = inr (JObj [("error",
                  JObj [("statusCode", JNum 500);
                        ("message",
                         JStr "An unexpected error occurred")])])
  /\ forall v,
       fetchApi this method path options = inr v ->
       js_in "details" (member "error" v) = inr false.
Proof.
  intros Hcall. rewrite (fetchApi_rejected e Hcall).
  split; [reflexivity |]. intros v Hv. injection Hv as <-. reflexivity.
Qed.

Section Resolved.

Variable res : FetchResponse.
Hypothesis Hcall :
  methods this method path (default_arg options (JObj [])) = inr res.

Ltac dispatch := rewrite (fetchApi_resolved res Hcall); unfold settle.

(** C2, as the code has it: on a 2xx response whose parsed body is
    falsy the dispatcher returns [{error: {statusCode: 500, message:
    "Malformed API response"}}], with the outer [error] key of the
    other error branches and inside the declared error type. *)
Theorem malformed_branch_keeps_wrapper (body : JsVal) :
  ok (response res) = true ->
  json (response res) = inr body ->
  truthy body = false ->
  fetchApi this method path options = inr malformed_error
  /\ js_in "error" malformed_error = inr true
  /\ isSearchALiciousError malformed_error = true.
Proof.
  intros Hok Hjson Hfalsy. dispatch.
  rewrite Hok, Hjson, Hfalsy. repeat split.
Qed.

(** C3, as the code has it: on a status-422 response whose error body
    has a [detail] array of [N] entries, none of them [null], the
    dispatcher returns the error with statusCode 422, message
    "Validation error" and a [details] array of [N] elements, the
    i-th one being what [msg] reads on the i-th entry. *)
Theorem validation_error_lists_messages
    (props : list (string * JsVal)) (ds : list JsVal) :
  status (response res) = 422 ->
  error res = JObj props ->
  assoc "detail" props = Some (JArr ds) ->
  Forall (fun d => nullish d = false) ds ->
  exists details,
    fetchApi this method path options
      = inr (JObj [("error", JObj [("statusCode", JNum 422);
                                   ("message", JStr "Validation error");
                                   ("details", JArr details)])])
    /\ length details = length ds
    /\ forall (i : nat) (d : JsVal),
         nth_error ds i = Some d ->
         nth_error details i = Some (member "msg" d).
Proof.
  intros Hstatus Herror Hdetail Hds.
  exists (map (member "msg") ds). split; [| split].
  - dispatch. rewrite (not_ok_422 _ Hstatus), Hstatus, Herror.
    rewrite (detail_messages_array props ds Hdetail Hds). reflexivity.
  - apply length_map.
  - intros i d Hi. rewrite nth_error_map, Hi. reflexivity.
Qed.

(** X3: a [null] or [undefined] anywhere among the entries of [detail]
    turns the validation error into the catch-all. *)
Lemma null_entry_is_unexpected_error
    (props : list (string * JsVal)) (ds : list JsVal) :
  status (response res) = 422 ->
  error res = JObj props ->
  assoc "detail" props = Some (JArr ds) ->
  Exists (fun d => nullish d = true) ds ->
  fetchApi this method path options = inr unexpected_error.
Proof.
  intros Hstatus Herror Hdetail Hds. dispatch.
  rewrite (not_ok_422 _ Hstatus), Hstatus, Herror.
  destruct (detail_messages_throws props ds Hdetail Hds) as [e ->].
  reflexivity.
Qed.

(** C4, as the code has it: on a response that is neither 2xx nor 422
    and whose body parses as JSON, the dispatcher returns the error
    with the response's own status as statusCode, the message "Error
    while requesting Nutripatrol API" and the parsed body as
    details. *)
Theorem request_error_carries_status_and_body (body : JsVal) :
  ok (response res) = false ->
  status (response res) <> 422 ->
  json (response res) = inr body ->
  fetchApi this method path options
    = inr (JObj [("error",
                  JObj [("statusCode", JNum (status (response res)));
                        ("message",
                         JStr "Error while requesting Nutripatrol API");
                        ("details", body)])]).
Proof.
  intros Hok Hstatus Hjson. dispatch. rewrite Hok, Hjson.
  destruct (Z.eqb_spec (status (response res)) 422) as [H422 | _];
    [contradiction | reflexivity].
Qed.

(** C6: on a 2xx response whose body parses to a truthy value, the
    dispatcher returns that very value. *)
Theorem success_body_round_trip (body : JsVal) :
  ok (response res) = true ->
  json (response res) = inr body ->
  truthy body = true ->
  fetchApi this method path options = inr body.
Proof.
  intros Hok Hjson Htruthy. dispatch.
  rewrite Hok, Hjson, Htruthy. reflexivity.
Qed.

(** C7: on a 2xx response whose parsed body is falsy, whatever the
    verb, the path and the options, the dispatcher's result is the
    error with statusCode 500 and message "Malformed API
    response". *)
Theorem falsy_body_is_malformed (body : JsVal) :
  ok (response res) = true ->
  json (response res) = inr body ->
  truthy body = false ->
  exists v,
    fetchApi this method path options = inr v
    /\ member "statusCode" (member "error" v) = JNum 500
    /\ member "message" (member "error" v)
       = JStr "Malformed API response".
Proof.
  intros Hok Hjson Hfalsy. exists malformed_error. dispatch.
  rewrite Hok, Hjson, Hfalsy. repeat split.
Qed.

(** C10: on a response that is neither 2xx nor 422 and whose body
    does not parse as JSON, the dispatcher returns the catch-all
    [{error: {statusCode: 500, message: "An unexpected error
    occurred"}}]: neither the response's status nor its body is in
    it. *)
Theorem unparsed_error_body_is_unexpected_error (e : Thrown) :
  ok (response res) = false ->
  status (response res) <> 422 ->
  json (response res) = inl e ->
  fetchApi this method path options
    = inr (JObj [("error",
                  JObj [("statusCode", JNum 500);
                        ("message",
                         JStr "An unexpected error occurred")])]).
Proof.
  intros Hok Hstatus Hjson. dispatch. rewrite Hok, Hjson.
  destruct (Z.eqb_spec (status (response res)) 422) as [H422 | _];
    [contradiction | reflexivity].
Qed.

End Resolved.

End Dispatcher.

(** ** The dispatcher's result and the accessors *)



(** C9: when a 2xx response's body is an object with an [error]
    property of its own, [getFlags] returns the body itself, not its
    [flags]: the accessor tells an error from a payload by the key
    alone. *)
Theorem getFlags_error_keyed_payload
    (this : SearchALicious) (res : FetchResponse)
    (props : list (string * JsVal)) (e : JsVal) :
  raw_GET (raw this) "/api/v1/flags" (JObj []) = inr res ->
  ok (response res) = true ->
  json (response res) = inr (JObj props) ->
  assoc "error" props = Some e ->
  getFlags this = inr (JObj props).
Proof.
  intros Hcall Hok Hjson Herror. unfold getFlags.
  rewrite (fetchApi_resolved this GET _ JUndefined res Hcall).
  unfold settle. rewrite Hok, Hjson. cbn. rewrite Herror. reflexivity.
Qed.

(** ** Concrete runs *)



Lemma malformed_branch_keeps_wrapper_run :
  fetchApi null_body PUT "/api/v1/flags/1" (JObj [("body", JObj [])])
    = inr malformed_error
  /\ js_in "error" malformed_error = inr true
  /\ isSearchALiciousError malformed_error = true.
Proof.
  apply (malformed_branch_keeps_wrapper null_body PUT "/api/v1/flags/1"
           (JObj [("body", JObj [])])
           (resolved 200 JUndefined (inr JNull)) eq_refl JNull);
    reflexivity.
Defined.

(** 200 with the body [null]: the value returned has the [error] key and
    belongs to the declared error type. *)
Lemma malformed_result_has_error_key :
  fetchApi null_body GET "/health" JUndefined
    = inr (JObj [("error", JObj [("statusCode", JNum 500);
                                 ("message", JStr "Malformed API response")])])
  /\ js_in "error" malformed_error <> inr false
  /\ isSearchALiciousError malformed_error <> false.
Proof. split; [reflexivity | split; discriminate]. Qed.

(** The scenario of the flags route: one entry, ["bad id"]. *)
Lemma validation_error_lists_messages_run :
  exists details,
    fetchApi invalid_id GET "/api/v1/flags" JUndefined
      = inr (JObj [("error", JObj [("statusCode", JNum 422);
                                   ("message", JStr "Validation error");
                                   ("details", JArr details)])])
    /\ length details = length [bad_id_entry]
    /\ forall (i : nat) (d : JsVal),
         nth_error [bad_id_entry] i = Some d ->
         nth_error details i = Some (member "msg" d).
Proof.
  apply (validation_error_lists_messages invalid_id GET "/api/v1/flags"
           JUndefined
           (resolved 422 bad_id_detail (inr bad_id_detail)) eq_refl
           [("detail", JArr [bad_id_entry])] [bad_id_entry]).
  - reflexivity.
  - reflexivity.
  - reflexivity.
  - repeat constructor.
Defined.

(** 422 with [{detail: [null]}]: reading [msg] on [null] throws inside
    the [try], and the result is the catch-all, not the validation
    error. *)
Lemma null_detail_entry_is_unexpected :
  status {| status := 422; json := inr null_detail |} = 422
  /\ assoc "detail" [("detail", JArr [JNull])] = Some (JArr [JNull])
  /\ fetchApi null_detail_entry GET "/api/v1/flags" JUndefined
     = inr unexpected_error
  /\ forall details,
       fetchApi null_detail_entry GET "/api/v1/flags" JUndefined
       <> inr (validation_error details).
Proof.
  split; [| split; [| split]]; try reflexivity.
  intros details H. discriminate H.
Qed.

Lemma request_error_carries_status_and_body_run :
  fetchApi not_found DELETE "/api/v1/flags/7" JUndefined
    = inr (JObj [("error",
                  JObj [("statusCode", JNum 404);
                        ("message",
                         JStr "Error while requesting Nutripatrol API");
                        ("details", JObj [("detail", JStr "Not Found")])])]).
Proof.
  apply (request_error_carries_status_and_body not_found DELETE
           "/api/v1/flags/7" JUndefined
           (resolved 404 (JObj [("detail", JStr "Not Found")])
              (inr (JObj [("detail", JStr "Not Found")])))
           eq_refl (JObj [("detail", JStr "Not Found")])).
  - reflexivity.
  - discriminate.
  - reflexivity.
Defined.

(** 502 with an HTML body: the statusCode returned is 500, not the
    response's 502, and there are no details. *)
Lemma unparsed_error_body_loses_status :
  ok {| status := 502; json := inl (SyntaxError "Unexpected token <") |}
    = false
  /\ fetchApi bad_gateway GET "/health" JUndefined = inr unexpected_error
  /\ member "statusCode" (member "error" unexpected_error) = JNum 500
  /\ forall details,
       fetchApi bad_gateway GET "/health" JUndefined
       <> inr (request_error 502 details).
Proof.
  split; [| split; [| split]]; try reflexivity.
  intros details H. discriminate H.
Qed.

Lemma transport_failure_is_unexpected_error_run :
  fetchApi offline POST "/api/v1/flags" (JObj [("body", JObj [])])
    = inr (JObj [("error",
                  JObj [("statusCode", JNum 500);
                        ("message", JStr "An unexpected error occurred")])])
  /\ forall v,
       fetchApi offline POST "/api/v1/flags" (JObj [("body", JObj [])])
         = inr v ->
       js_in "details" (member "error" v) = inr false.
Proof.
  apply (transport_failure_is_unexpected_error offline POST "/api/v1/flags"
           (JObj [("body", JObj [])]) (Rejected (JStr "fetch failed"))).
  reflexivity.
Defined.

Lemma success_body_round_trip_run :
  fetchApi flags_body GET "/api/v1/flags" JUndefined
    = inr (JObj [("flags", JArr [JObj [("id", JNum 1)]])]).
Proof.
  apply (success_body_round_trip flags_body GET "/api/v1/flags" JUndefined
           (resolved 200 JUndefined
              (inr (JObj [("flags", JArr [JObj [("id", JNum 1)]])])))
           eq_refl);
    reflexivity.
Defined.

Lemma falsy_body_is_malformed_run :
  exists v,
    fetchApi null_body DELETE "/api/v1/tickets/3" JUndefined = inr v
    /\ member "statusCode" (member "error" v) = JNum 500
    /\ member "message" (member "error" v) = JStr "Malformed API response".
Proof.
  apply (falsy_body_is_malformed null_body DELETE "/api/v1/tickets/3"
           JUndefined (resolved 200 JUndefined (inr JNull)) eq_refl JNull);
    reflexivity.
Defined.

Lemma unparsed_error_body_is_unexpected_error_run :
  fetchApi bad_gateway GET "/api/v1/flags" JUndefined
    = inr (JObj [("error",
                  JObj [("statusCode", JNum 500);
                        ("message", JStr "An unexpected error occurred")])]).
Proof.
  apply (unparsed_error_body_is_unexpected_error bad_gateway GET
           "/api/v1/flags" JUndefined
           (resolved 502 (JStr "<html>Bad Gateway</html>")
              (inl (SyntaxError "Unexpected token <")))
           eq_refl (SyntaxError "Unexpected token <")).
  - reflexivity.
  - discriminate.
  - reflexivity.
Defined.



(** A payload with both keys: [getFlags] gives the payload, whose
    [flags] is [[]]. *)
Lemma getFlags_error_keyed_payload_run :
  getFlags error_keyed_body
    = inr (JObj [("error", JStr "maintenance"); ("flags", JArr [])])
  /\ member "flags" (JObj [("error", JStr "maintenance"); ("flags", JArr [])])
     = JArr [].
Proof.
  split; [| reflexivity].
  apply (getFlags_error_keyed_payload error_keyed_body
           (resolved 200 JUndefined
              (inr (JObj [("error", JStr "maintenance");
                          ("flags", JArr [])])))
           [("error", JStr "maintenance"); ("flags", JArr [])]
           (JStr "maintenance"));
    reflexivity.
Defined.

(** ** Further properties of the dispatcher *)

Lemma error_shape_has_key v :
  isSearchALiciousError v = true -> js_in "error" v = inr true.
Proof.
  destruct v as [| | | | | |props]; cbn; try discriminate.
  destruct (assoc "error" props); [reflexivity | discriminate].
Qed.

Lemma member_defined k v : nullish (member k v) = false -> nullish v = false.
Proof. destruct v; cbn; try discriminate; reflexivity. Qed.

Lemma is_object_truthy v : is_object v = true -> truthy v = true.
Proof. destruct v; cbn; try discriminate; reflexivity. Qed.

(** Every call settles to a value: an error the dispatcher built or the
    truthy body of a 2xx response. *)
Lemma fetchApi_shape this method path options :
  exists v,
    fetchApi this method path options = inr v
    /\ (isSearchALiciousError v = true
        \/ exists res,
             methods this method path (default_arg options (JObj []))
               = inr res
             /\ ok (response res) = true
             /\ json (response res) = inr v
             /\ truthy v = true).
Proof.
  destruct (methods this method path (default_arg options (JObj [])))
    as [e | res] eqn:Hcall.
  - exists unexpected_error. split.
    + exact (fetchApi_rejected _ _ _ _ e Hcall).
    + left. reflexivity.
  - exists (settle res). split.
    + exact (fetchApi_resolved _ _ _ _ res Hcall).
    + destruct (settle_shape res) as [Herr | Hbody]; [left; exact Herr |].
      right. exists res. split; [reflexivity | exact Hbody].
Qed.

(** A truthy 2xx body is the dispatcher's result. *)
Lemma fetchApi_payload this method path options res body :
  methods this method path (default_arg options (JObj [])) = inr res ->
  ok (response res) = true ->
  json (response res) = inr body ->
  truthy body = true ->
  fetchApi this method path options = inr body.
Proof.
  intros Hcall Hok Hjson Htruthy.
  rewrite (fetchApi_resolved _ _ _ _ res Hcall). unfold settle.
  rewrite Hok, Hjson, Htruthy. reflexivity.
Qed.

Section Edges.

Variable this : SearchALicious.
Variable method : Method.
Variable path : string.
Variable options : JsVal.
Variable res : FetchResponse.
Hypothesis Hcall :
  methods this method path (default_arg options (JObj [])) = inr res.

Ltac dispatch := rewrite (fetchApi_resolved _ _ _ _ res Hcall); unfold settle.

(** X1: on a status-422 response that has no error body, or whose error
    body has no [detail] (or a [null] one), the dispatcher still returns
    the validation error; its [details] is [undefined]. *)
Theorem validation_error_without_detail :
  status (response res) = 422 ->
  nullish (error res) = true
  \/ nullish (member "detail" (error res)) = true ->
  fetchApi this method path options
    = inr (JObj [("error", JObj [("statusCode", JNum 422);
                                 ("message", JStr "Validation error");
                                 ("details", JUndefined)])]).
Proof.
  intros Hstatus Hmissing. dispatch.
  rewrite (not_ok_422 _ Hstatus), Hstatus. cbn. unfold detail_messages.
  destruct (nullish (error res)) eqn:Herr; [reflexivity |].
  destruct Hmissing as [H | Hdetail]; [discriminate H |].
  rewrite (getProp_defined _ "detail" Herr). cbn. rewrite Hdetail.
  reflexivity.
Qed.

(** X2: on a status-422 response whose [detail] is there but is not an
    array (a string, a number, an object), calling [map] on it throws and
    the dispatcher returns the catch-all with statusCode 500. *)
Theorem validation_detail_not_array :
  status (response res) = 422 ->
  nullish (member "detail" (error res)) = false ->
  is_array (member "detail" (error res)) = false ->
  fetchApi this method path options
    = inr (JObj [("error",
                  JObj [("statusCode", JNum 500);
                        ("message", JStr "An unexpected error occurred")])]).
Proof.
  intros Hstatus Hdetail Harray. dispatch.
  rewrite (not_ok_422 _ Hstatus), Hstatus. cbn. unfold detail_messages.
  rewrite (member_defined _ _ Hdetail).
  rewrite (getProp_defined _ "detail" (member_defined _ _ Hdetail)). cbn.
  rewrite Hdetail.
  destruct (member "detail" (error res)); try reflexivity.
  discriminate Harray.
Qed.

(** X5: on a 2xx response whose body does not parse ([json()] rejects,
    as on an empty body), the dispatcher returns the catch-all, not the
    "Malformed API response" error. *)
Theorem unparsed_success_body_is_unexpected_error (e : Thrown) :
  ok (response res) = true ->
  json (response res) = inl e ->
  fetchApi this method path options
    = inr (JObj [("error",
                  JObj [("statusCode", JNum 500);
                        ("message", JStr "An unexpected error occurred")])]).
Proof.
  intros Hok Hjson. dispatch. rewrite Hok, Hjson. reflexivity.
Qed.

(** X6: a 2xx body that is an object or an array, even [{}] or [[]], is
    never taken for a malformed response: the dispatcher returns it. *)
Theorem object_body_never_malformed (body : JsVal) :
  ok (response res) = true ->
  json (response res) = inr body ->
  is_object body = true ->
  fetchApi this method path options = inr body.
Proof.
  intros Hok Hjson Hobj. dispatch.
  rewrite Hok, Hjson, (is_object_truthy body Hobj). reflexivity.
Qed.

(** X7: on a response that is not 2xx the dispatcher never returns a
    payload: it returns a [SearchALiciousError] whose statusCode is the
    response's status or 500. *)
Theorem error_status_never_yields_payload :
  ok (response res) = false ->
  exists v,
    fetchApi this method path options = inr v
    /\ isSearchALiciousError v = true
    /\ (member "statusCode" (member "error" v)
          = JNum (status (response res))
        \/ member "statusCode" (member "error" v) = JNum 500).
Proof.
  intros Hok. exists (settle res). split; [| split].
  - exact (fetchApi_resolved _ _ _ _ res Hcall).
  - destruct (settle_shape res) as [H | [H _]]; [exact H |].
    rewrite Hok in H. discriminate H.
  - unfold settle. rewrite Hok.
    destruct (Z.eqb_spec (status (response res)) 422) as [H422 | _].
    + destruct (detail_messages (error res)); [right; reflexivity |].
      left. rewrite H422. reflexivity.
    + destruct (json (response res)); [right | left]; reflexivity.
Qed.

End Edges.

(** X4: on status 422 the response body is never read: two responses
    with status 422 and the same error give the same result, whatever
    their [json()] would do. *)
Theorem validation_branch_ignores_body
    (this this' : SearchALicious) (method : Method) (path : string)
    (options : JsVal) (res res' : FetchResponse) :
  methods this method path (default_arg options (JObj [])) = inr res ->
  methods this' method path (default_arg options (JObj [])) = inr res' ->
  status (response res) = 422 ->
  status (response res') = 422 ->
  error res = error res' ->
  fetchApi this method path options = fetchApi this' method path options.
Proof.
  intros Hcall Hcall' Hstatus Hstatus' Herror.
  rewrite (fetchApi_resolved _ _ _ _ res Hcall),
          (fetchApi_resolved _ _ _ _ res' Hcall').
  unfold settle.
  rewrite (not_ok_422 _ Hstatus), (not_ok_422 _ Hstatus'),
          Hstatus, Hstatus', Herror.
  reflexivity.
Qed.

(** X8: a dispatcher result on which the [error] test is not true is
    the genuine payload: the call resolved to a 2xx response whose body
    parsed to that truthy value. *)
Theorem no_error_key_means_payload
    (this : SearchALicious) (method : Method) (path : string)
    (options v : JsVal) :
  fetchApi this method path options = inr v ->
  js_in "error" v <> inr true ->
  exists res,
    methods this method path (default_arg options (JObj [])) = inr res
    /\ ok (response res) = true
    /\ json (response res) = inr v
    /\ truthy v = true.
Proof.
  intros Hv Hkey.
  destruct (fetchApi_shape this method path options)
    as [w [Hw [Herr | Hpayload]]];
    rewrite Hw in Hv; injection Hv as <-.
  - contradiction (Hkey (error_shape_has_key w Herr)).
  - exact Hpayload.
Qed.

(** ** Further properties of the accessors *)

Lemma js_in_primitive k v : is_object v = false -> exists e, js_in k v = inl e.
Proof.
  destruct v; cbn; try discriminate; intros _; eexists; reflexivity.
Qed.

(** [getFlags] once the dispatcher has returned. *)
Lemma getFlags_after this v :
  fetchApi this GET "/api/v1/flags" JUndefined = inr v ->
  getFlags this
  = match js_in "error" v with
    | inl e => inl e
    | inr true => inr v
    | inr false => getProp v "flags"
    end.
Proof.
  intros Hv. unfold getFlags. rewrite Hv. cbn.
  destruct (js_in "error" v) as [e | []]; reflexivity.
Qed.

(** [getApiHealth] once the dispatcher has returned. *)
Lemma getApiHealth_after this v :
  fetchApi this GET "/health" JUndefined = inr v ->
  getApiHealth this
  = match js_in "error" v with
    | inl e => inl e
    | inr _ => inr v
    end.
Proof.
  intros Hv. unfold getApiHealth. rewrite Hv. cbn.
  destruct (js_in "error" v) as [e | []]; reflexivity.
Qed.

(** X9: unless the call resolved to a 2xx response with a truthy body,
    an accessor resolves to what the dispatcher returned, which is a
    [SearchALiciousError]: a failed request never makes an accessor
    throw and never gives a payload. *)
Theorem accessors_relay_dispatcher_failures (this : SearchALicious) :
  (~ (exists res body,
        raw_GET (raw this) "/api/v1/flags" (JObj []) = inr res
        /\ ok (response res) = true
        /\ json (response res) = inr body
        /\ truthy body = true) ->
   exists v,
     getFlags this = inr v
     /\ fetchApi this GET "/api/v1/flags" JUndefined = inr v
     /\ isSearchALiciousError v = true)
  /\ (~ (exists res body,
           raw_GET (raw this) "/health" (JObj []) = inr res
           /\ ok (response res) = true
           /\ json (response res) = inr body
           /\ truthy body = true) ->
      exists v,
        getApiHealth this = inr v
        /\ fetchApi this GET "/health" JUndefined = inr v
        /\ isSearchALiciousError v = true).
Proof.
  split; intros Hfailed.
  - destruct (fetchApi_shape this GET "/api/v1/flags" JUndefined)
      as [v [Hv [Herr | [res Hpayload]]]].
    + exists v. rewrite (getFlags_after this v Hv).
      rewrite (error_shape_has_key v Herr). auto.
    + contradiction Hfailed. exists res, v. exact Hpayload.
  - destruct (fetchApi_shape this GET "/health" JUndefined)
      as [v [Hv [Herr | [res Hpayload]]]].
    + exists v. rewrite (getApiHealth_after this v Hv).
      rewrite (error_shape_has_key v Herr). auto.
    + contradiction Hfailed. exists res, v. exact Hpayload.
Qed.

(** X10: on a 2xx body that is an array, or an object with neither an
    [error] nor a [flags] property, [getFlags] resolves to
    [undefined]. *)
Theorem getFlags_missing_flags
    (this : SearchALicious) (res : FetchResponse) :
  raw_GET (raw this) "/api/v1/flags" (JObj []) = inr res ->
  ok (response res) = true ->
  (forall items,
     json (response res) = inr (JArr items) ->
     getFlags this = inr JUndefined)
  /\ (forall props,
        json (response res) = inr (JObj props) ->
        assoc "error" props = None ->
        assoc "flags" props = None ->
        getFlags this = inr JUndefined).
Proof.
  intros Hcall Hok. split.
  - intros items Hjson.
    rewrite (getFlags_after this (JArr items)); [reflexivity |].
    exact (fetchApi_payload this GET _ JUndefined res (JArr items)
             Hcall Hok Hjson eq_refl).
  - intros props Hjson Herror Hflags.
    rewrite (getFlags_after this (JObj props)).
    + cbn. rewrite Herror. unfold getProp. cbn. rewrite Hflags. reflexivity.
    + exact (fetchApi_payload this GET _ JUndefined res (JObj props)
               Hcall Hok Hjson eq_refl).
Qed.

(** X11: [getFlags] throws exactly when the call resolved to a 2xx
    response whose body parsed to a truthy value that is neither an
    object nor an array (a number, a string, [true]). *)
Theorem getFlags_throws_iff_primitive_body (this : SearchALicious) :
  (exists e, getFlags this = inl e)
  <-> exists res body,
        raw_GET (raw this) "/api/v1/flags" (JObj []) = inr res
        /\ ok (response res) = true
        /\ json (response res) = inr body
        /\ truthy body = true
        /\ is_object body = false.
Proof.
  split.
  - intros [e He].
    destruct (fetchApi_shape this GET "/api/v1/flags" JUndefined)
      as [v [Hv [Herr | [res [Hcall [Hok [Hjson Htruthy]]]]]]];
      rewrite (getFlags_after this v Hv) in He.
    + rewrite (error_shape_has_key v Herr) in He. discriminate He.
    + exists res, v. repeat (split; [assumption |]).
      destruct (is_object v) eqn:Hobj; [| reflexivity].
      destruct (js_in_object "error" v Hobj) as [b Hb].
      rewrite Hb in He. destruct b; [discriminate He |].
      rewrite (getProp_defined v "flags" (js_in_defined _ _ _ Hb)) in He.
      discriminate He.
  - intros [res [body [Hcall [Hok [Hjson [Htruthy Hprim]]]]]].
    rewrite (getFlags_after this body
               (fetchApi_payload this GET _ JUndefined res body
                  Hcall Hok Hjson Htruthy)).
    destruct (js_in_primitive "error" body Hprim) as [e ->].
    exists e. reflexivity.
Qed.

(** X12: what [getApiHealth] resolves to is exactly what the dispatcher
    returned, and it resolves exactly when that is an object or an
    array. *)
Theorem getApiHealth_resolves_iff_object (this : SearchALicious) (v : JsVal) :
  getApiHealth this = inr v
  <-> fetchApi this GET "/health" JUndefined = inr v /\ is_object v = true.
Proof.
  split.
  - intros Hhealth.
    destruct (fetchApi_shape this GET "/health" JUndefined) as [w [Hw _]].
    rewrite (getApiHealth_after this w Hw) in Hhealth.
    destruct (is_object w) eqn:Hobj.
    + destruct (js_in_object "error" w Hobj) as [b Hb].
      rewrite Hb in Hhealth. injection Hhealth as <-. auto.
    + destruct (js_in_primitive "error" w Hobj) as [e He].
      rewrite He in Hhealth. discriminate Hhealth.
  - intros [Hv Hobj]. rewrite (getApiHealth_after this v Hv).
    destruct (js_in_object "error" v Hobj) as [b ->]. reflexivity.
Qed.

(** ** Concrete runs of the further properties *)

(** 422 without an error body. *)
Lemma validation_error_without_detail_run :
  fetchApi invalid_bare GET "/api/v1/flags" JUndefined
    = inr (JObj [("error", JObj [("statusCode", JNum 422);
                                 ("message", JStr "Validation error");
                                 ("details", JUndefined)])]).
Proof.
  apply (validation_error_without_detail invalid_bare GET "/api/v1/flags"
           JUndefined
           (resolved 422 JUndefined
              (inl (SyntaxError "Unexpected end of JSON input")))
           eq_refl).
  - reflexivity.
  - left. reflexivity.
Defined.

(** 422 with [{detail: "Not valid"}]. *)
Lemma validation_detail_not_array_run :
  fetchApi invalid_plain POST "/api/v1/flags" (JObj [("body", JObj [])])
    = inr (JObj [("error",
                  JObj [("statusCode", JNum 500);
                        ("message", JStr "An unexpected error occurred")])]).
Proof.
  apply (validation_detail_not_array invalid_plain POST "/api/v1/flags"
           (JObj [("body", JObj [])])
           (resolved 422 string_detail (inr string_detail)) eq_refl);
    reflexivity.
Defined.

(** 422 with a [null] after a well-formed entry. *)
Lemma null_entry_is_unexpected_error_run :
  fetchApi invalid_mixed GET "/api/v1/flags" JUndefined = inr unexpected_error.
Proof.
  apply (null_entry_is_unexpected_error invalid_mixed GET "/api/v1/flags"
           JUndefined (resolved 422 mixed_detail (inr mixed_detail)) eq_refl
           [("detail", JArr [bad_id_entry; JNull])] [bad_id_entry; JNull]).
  - reflexivity.
  - reflexivity.
  - reflexivity.
  - apply Exists_cons_tl, Exists_cons_hd. reflexivity.
Defined.

(** 422 twice, once with a body that is not JSON and once with [1]. *)
Lemma validation_branch_ignores_body_run :
  fetchApi invalid_bare GET "/api/v1/flags" JUndefined
  = fetchApi (stub (respond 422 JUndefined (inr (JNum 1))))
      GET "/api/v1/flags" JUndefined.
Proof.
  apply (validation_branch_ignores_body invalid_bare
           (stub (respond 422 JUndefined (inr (JNum 1))))
           GET "/api/v1/flags" JUndefined
           (resolved 422 JUndefined
              (inl (SyntaxError "Unexpected end of JSON input")))
           (resolved 422 JUndefined (inr (JNum 1))));
    reflexivity.
Defined.

(** 204 No Content. *)
Lemma unparsed_success_body_is_unexpected_error_run :
  fetchApi no_content DELETE "/api/v1/flags/7" JUndefined
    = inr (JObj [("error",
                  JObj [("statusCode", JNum 500);
                        ("message", JStr "An unexpected error occurred")])]).
Proof.
  apply (unparsed_success_body_is_unexpected_error no_content DELETE
           "/api/v1/flags/7" JUndefined
           (resolved 204 JUndefined
              (inl (SyntaxError "Unexpected end of JSON input")))
           eq_refl (SyntaxError "Unexpected end of JSON input"));
    reflexivity.
Defined.

(** 200 with [{}]. *)
Lemma object_body_never_malformed_run :
  fetchApi empty_object_body GET "/health" JUndefined = inr (JObj []).
Proof.
  apply (object_body_never_malformed empty_object_body GET "/health"
           JUndefined (resolved 200 JUndefined (inr (JObj []))) eq_refl);
    reflexivity.
Defined.

(** 502 with an HTML body: the statusCode is one of 502 and 500. *)
Lemma error_status_never_yields_payload_run :
  exists v,
    fetchApi bad_gateway GET "/health" JUndefined = inr v
    /\ isSearchALiciousError v = true
    /\ (member "statusCode" (member "error" v) = JNum 502
        \/ member "statusCode" (member "error" v) = JNum 500).
Proof.
  apply (error_status_never_yields_payload bad_gateway GET "/health"
           JUndefined
           (resolved 502 (JStr "<html>Bad Gateway</html>")
              (inl (SyntaxError "Unexpected token <")))
           eq_refl).
  reflexivity.
Defined.

(** The flags payload has no [error] key: it is the body of the 200. *)
Lemma no_error_key_means_payload_run :
  exists res,
    methods flags_body GET "/api/v1/flags" (default_arg JUndefined (JObj []))
      = inr res
    /\ ok (response res) = true
    /\ json (response res)
       = inr (JObj [("flags", JArr [JObj [("id", JNum 1)]])])
    /\ truthy (JObj [("flags", JArr [JObj [("id", JNum 1)]])]) = true.
Proof.
  apply (no_error_key_means_payload flags_body GET "/api/v1/flags"
           JUndefined (JObj [("flags", JArr [JObj [("id", JNum 1)]])])).
  - reflexivity.
  - discriminate.
Defined.

(** The network is down: [getFlags] resolves to the dispatcher's
    error. *)
Lemma accessors_relay_dispatcher_failures_run :
  exists v,
    getFlags offline = inr v
    /\ fetchApi offline GET "/api/v1/flags" JUndefined = inr v
    /\ isSearchALiciousError v = true.
Proof.
  apply (proj1 (accessors_relay_dispatcher_failures offline)).
  intros [res [body [Hcall _]]]. discriminate Hcall.
Defined.

(** 200 with [{}] on the flags route. *)
Lemma getFlags_missing_flags_run :
  getFlags empty_object_body = inr JUndefined.
Proof.
  apply (proj2 (getFlags_missing_flags empty_object_body
                  (resolved 200 JUndefined (inr (JObj [])))
                  eq_refl eq_refl) []);
    reflexivity.
Defined.

(** 200 with the string ["OK"]. *)
Lemma getFlags_throws_iff_primitive_body_run :
  exists e, getFlags string_body = inl e.
Proof.
  apply (proj2 (getFlags_throws_iff_primitive_body string_body)).
  exists (resolved 200 JUndefined (inr (JStr "OK"))), (JStr "OK").
  repeat split.
Defined.

(** 200 with an object on the health route. *)
Lemma getApiHealth_resolves_iff_object_run :
  getApiHealth flags_body
    = inr (JObj [("flags", JArr [JObj [("id", JNum 1)]])]).
Proof.
  apply (proj2 (getApiHealth_resolves_iff_object flags_body
                  (JObj [("flags", JArr [JObj [("id", JNum 1)]])]))).
  split; reflexivity.
Defined.
